(** * RogerAI: a shallow embedding of the video pipeline and its properties

    The development follows the Python sources file by file:

    - [Py]: the Python built-ins the code relies on ([str.split], [in],
      [int] on a number, true division, [list.remove], [Path.stem]);
    - [Main]: [web-app/backend/main.py] (timestamp parsing, frame
      extraction, rotation metadata, slow motion);
    - [VideoPoseProcessor]: [video_pose_processor.py] (the frame loop and
      its statistics);
    - [GeminiVideoAnalyzer]: [web-app/backend/gemini_analyzer.py]
      (artifact bookkeeping);
    - [VideoAnalysisPipeline]: [web-app/backend/video_analysis_pipeline.py]
      (single-video and batch orchestration).

    Conventions.  A Python [str] is the [string] of its UTF-8 bytes.  A
    call that may raise returns an [option] or a sum; a method that
    mutates [self] takes the old state and returns the new one.  The
    [float]s of [timestamp_to_seconds] are IEEE binary64 ([PrimFloat]);
    the other real-valued quantities (frame rates, wall-clock readings,
    ratios) are exact rationals [Q], so rounding is not modelled there. *)

From Stdlib Require Import ZArith QArith Qround Lia Ascii String PrimFloat.
From stdpp Require Import base option strings list gmap.

Set Default Proof Using "Type".

(* [set_solver] clears hypotheses that are not always there. *)
Set Warnings "-clear-no-such-hyp".

(* ===================================================================== *)
(** * Python built-ins *)
(* ===================================================================== *)

Module Py.

(** [c in s] for a one-character [c]. *)
Fixpoint contains (c : ascii) (s : string) : bool :=
  match s with
  | EmptyString => false
  | String d s' => if Ascii.eqb d c then true else contains c s'
  end.

(** [s.split(c)] for a one-character separator: never empty, and one
    more part than there are separators. *)
Fixpoint split (c : ascii) (s : string) : list string :=
  match s with
  | EmptyString => [EmptyString]
  | String d s' =>
      if Ascii.eqb d c then EmptyString :: split c s'
      else match split c s' with
           | [] => [String d EmptyString]
           | p :: ps => String d p :: ps
           end
  end.

(** [int(x)] on a number: truncation toward zero. *)
Definition int_of_number (x : Q) : Z := Z.quot (Qnum x) (Zpos (Qden x)).

(** [x / y] on numbers; [None] is [ZeroDivisionError]. *)
Definition truediv (x y : Q) : option Q :=
  if Qeq_bool y 0 then None else Some (x / y)%Q.

(** [l.remove(x)]: drops the first occurrence; [None] is [ValueError]. *)
Fixpoint list_remove (x : string) (l : list string) : option (list string) :=
  match l with
  | [] => None
  | y :: l' =>
      if String.eqb y x then Some l'
      else l'' ← list_remove x l'; Some (y :: l'')
  end.

(** The text around the last ['.'] of a file name, if there is one. *)
Fixpoint rsplit_dot (s : string) : option (string * string) :=
  match s with
  | EmptyString => None
  | String d s' =>
      match rsplit_dot s' with
      | Some (b, a) => Some (String d b, a)
      | None => if Ascii.eqb d "." then Some (EmptyString, s') else None
      end
  end.

Definition is_empty (s : string) : bool :=
  match s with EmptyString => true | _ => false end.

(** [PurePosixPath(p).name]: the last component, empty components and
    ["."] components being dropped by the path parser. *)
Definition path_name (p : string) : string :=
  List.last
    (List.filter (fun q => negb (is_empty q) && negb (String.eqb q "."))
                 (split "/" p))
    EmptyString.

(** [PurePosixPath(p).stem]: the name without its last suffix; a leading
    or a trailing dot starts no suffix. *)
Definition path_stem (p : string) : string :=
  let name := path_name p in
  match rsplit_dot name with
  | Some (b, a) => if is_empty b || is_empty a then name else b
  | None => name
  end.

End Py.

(* ===================================================================== *)
(** * OpenCV objects as the code observes them *)
(* ===================================================================== *)

Module Cv2.

(** An opened [cv2.VideoCapture]: the container's properties, each a
    number as [cap.get] returns it, and the frames that successive
    [cap.read()] calls decode.  The reported frame count and the decoded
    frames are separate observations; nothing in the code ties them. *)
Record VideoCapture (Frame : Type) := {
  CAP_PROP_FPS : Q;
  CAP_PROP_FRAME_WIDTH : Q;
  CAP_PROP_FRAME_HEIGHT : Q;
  CAP_PROP_FRAME_COUNT : Q;
  decoded : list Frame
}.

(** A [cv2.VideoWriter]: the frame rate and size it was opened with,
    and the frames handed to [write], oldest first. *)
Record VideoWriter (Frame : Type) := {
  vw_fps : Q;
  vw_size : Z * Z;
  vw_frames : list Frame
}.

Inductive RotateCode :=
  | ROTATE_90_CLOCKWISE
  | ROTATE_180
  | ROTATE_90_COUNTERCLOCKWISE.

Arguments CAP_PROP_FPS {Frame} _.
Arguments CAP_PROP_FRAME_WIDTH {Frame} _.
Arguments CAP_PROP_FRAME_HEIGHT {Frame} _.
Arguments CAP_PROP_FRAME_COUNT {Frame} _.
Arguments decoded {Frame} _.
Arguments vw_fps {Frame} _.
Arguments vw_size {Frame} _.
Arguments vw_frames {Frame} _.

Definition write {Frame} (out : VideoWriter Frame) (frame : Frame) :
    VideoWriter Frame :=
  {| vw_fps := vw_fps out; vw_size := vw_size out;
     vw_frames := vw_frames out ++ [frame] |}.

End Cv2.

(* ===================================================================== *)
(** * web-app/backend/main.py *)
(* ===================================================================== *)

Module Main.

(** ** Timestamp parsing *)

(** What [timestamp_to_seconds] hands back: a [float], or Python's
    [None] when control falls off the end of the body. *)
Inductive py_result :=
  | PyFloat (x : float)
  | PyNone.

Section timestamp.

(** [float(s)] on a [str]; [None] stands for [ValueError], the one
    exception it raises there.  The built-in is left open: the results
    below hold whatever it accepts. *)
Variable float_of_str : string -> option float.

(** The body of the [try].  [None] is a [ValueError] escaping it. *)
Definition timestamp_body (timestamp : string) : option py_result :=
  if Py.contains ":" timestamp then
    match Py.split ":" timestamp with
    | [minutes; seconds] =>
        m ← float_of_str minutes;
        s ← float_of_str seconds;
        Some (PyFloat (m * 60 + s)%float)
    | [hours; minutes; seconds] =>
        h ← float_of_str hours;
        m ← float_of_str minutes;
        s ← float_of_str seconds;
        Some (PyFloat (h * 3600 + m * 60 + s)%float)
    | _ => Some PyNone
    end
  else
    x ← float_of_str timestamp; Some (PyFloat x).

(** The [except (ValueError, IndexError)] handler returns [0.0]. *)
Definition timestamp_to_seconds (timestamp : string) : py_result :=
  default (PyFloat 0%float) (timestamp_body timestamp).

End timestamp.

(** A fragment of [float]: unsigned decimal literals of at most fifteen
    digits.  Digits and powers of ten of that size are exact in
    binary64, so the one rounded division below yields the value
    [float] yields.  It serves to run the model on literals; every other
    string is left to the variable above. *)
Definition digit (c : ascii) : option float :=
  match c with
  | "0"%char => Some 0%float | "1"%char => Some 1%float
  | "2"%char => Some 2%float | "3"%char => Some 3%float
  | "4"%char => Some 4%float | "5"%char => Some 5%float
  | "6"%char => Some 6%float | "7"%char => Some 7%float
  | "8"%char => Some 8%float | "9"%char => Some 9%float
  | _ => None
  end.

Fixpoint digits (acc : float) (s : string) : option float :=
  match s with
  | EmptyString => Some acc
  | String c s' => d ← digit c; digits (acc * 10 + d)%float s'
  end.

Fixpoint pow10 (n : nat) : float :=
  match n with O => 1%float | S n' => (10 * pow10 n')%float end.

Definition short_decimal (s : string) : option float :=
  match Py.split "." s with
  | [i] =>
      if Py.is_empty i || (15 <? String.length i)%nat then None
      else digits 0%float i
  | [i; f] =>
      if (Py.is_empty i && Py.is_empty f)
         || (15 <? String.length i + String.length f)%nat
      then None
      else m ← digits 0%float (i +:+ f);
           Some (m / pow10 (String.length f))%float
  | _ => None
  end.

(** ** Frame extraction *)

(** [frame_number] as [extract_frame_at_timestamp] computes and clamps
    it before seeking. *)
Definition frame_number_at (timestamp_seconds fps : Q) (total_frames : Z) : Z :=
  let frame_number := Py.int_of_number (timestamp_seconds * fps) in
  if (frame_number >=? total_frames)%Z then (total_frames - 1)%Z
  else if (frame_number <? 0)%Z then 0%Z
  else frame_number.

(** The function up to the decoded frame: [None] where it returns
    [False] before writing (the capture did not open, or no frame could
    be read at the position sought); otherwise the position and the
    frame handed to [cv2.imwrite]. *)
Definition extract_frame_at_timestamp {Frame}
    (cap : option (Cv2.VideoCapture Frame)) (timestamp_seconds : Q) :
    option (Z * Frame) :=
  match cap with
  | None => None
  | Some cap =>
      let fps := Cv2.CAP_PROP_FPS cap in
      let total_frames := Py.int_of_number (Cv2.CAP_PROP_FRAME_COUNT cap) in
      let frame_number := frame_number_at timestamp_seconds fps total_frames in
      if (frame_number <? 0)%Z then None
      else frame ← Cv2.decoded cap !! Z.to_nat frame_number;
           Some (frame_number, frame)
  end.


(** ** Rotation metadata *)

(** ffprobe's JSON as far as the code reads it.  A field is [None] when
    the key is absent. *)
Record SideData := {
  side_data_type : option string;
  rotation : option Z
}.

Record Stream := {
  codec_type : option string;
  side_data_list : list SideData;
  tags_rotate : option string
}.

(** Running ffprobe: the call itself raised, or it exited with a return
    code and a standard output that parses to a list of streams
    ([None] when [json.loads] rejects it). *)
Inductive Ffprobe :=
  | ProbeRaised
  | ProbeExit (returncode : Z) (stdout : option (list Stream)).

(** What the scan of the streams ends in. *)
Inductive Scan :=
  | Return (angle : Z)
  | Raise
  | FellThrough.

Section rotation.

(** [int(s)] on a [str]; [None] stands for [ValueError]. *)
Variable int_of_str : string -> option Z.

(** The inner loop: the first entry of type ["Display Matrix"] returns
    [int(-rotation)], an absent rotation counting as [0]. *)
Fixpoint display_matrix (l : list SideData) : option Z :=
  match l with
  | [] => None
  | side_data :: l' =>
      if decide (side_data_type side_data = Some "Display Matrix")
      then Some (- default 0 (rotation side_data))%Z
      else display_matrix l'
  end.

(** The outer loop over the streams. *)
Fixpoint scan_streams (streams : list Stream) : Scan :=
  match streams with
  | [] => FellThrough
  | stream :: rest =>
      if decide (codec_type stream = Some "video") then
        match display_matrix (side_data_list stream) with
        | Some angle => Return angle
        | None =>
            match tags_rotate stream with
            | Some t =>
                match int_of_str t with
                | Some angle => Return angle
                | None => Raise
                end
            | None => scan_streams rest
            end
        end
      else scan_streams rest
  end.

(** Every failure, and a scan that finds nothing, gives [0]. *)
Definition get_video_rotation (probe : Ffprobe) : Z :=
  match probe with
  | ProbeRaised => 0
  | ProbeExit returncode stdout =>
      if (returncode =? 0)%Z then
        match stdout with
        | None => 0
        | Some streams =>
            match scan_streams streams with
            | Return angle => angle
            | Raise => 0
            | FellThrough => 0
            end
        end
      else 0
  end%Z.

(** ** Slow motion *)

Context {Frame : Type}.

(** [cv2.rotate]. *)
Variable cv2_rotate : Cv2.RotateCode -> Frame -> Frame.

Definition rotate_frame (frame : Frame) (angle : Z) : Frame :=
  if (angle =? 90)%Z then cv2_rotate Cv2.ROTATE_90_CLOCKWISE frame
  else if (angle =? 180)%Z then cv2_rotate Cv2.ROTATE_180 frame
  else if (angle =? 270)%Z then cv2_rotate Cv2.ROTATE_90_COUNTERCLOCKWISE frame
  else frame.

(** The size the writer is opened with. *)
Definition output_size (rotation_angle width height : Z) : Z * Z :=
  if (rotation_angle =? 90)%Z || (rotation_angle =? 270)%Z
  then (height, width)
  else (width, height).

(** [if rotation_angle != 0: frame = rotate_frame(frame, rotation_angle)]. *)
Definition corrected (rotation_angle : Z) (frame : Frame) : Frame :=
  if (rotation_angle =? 0)%Z then frame
  else rotate_frame frame rotation_angle.

(** The read-and-write loop, one iteration per decoded frame. *)
Fixpoint write_frames (rotation_angle : Z) (frames : list Frame)
    (out : Cv2.VideoWriter Frame) : Cv2.VideoWriter Frame :=
  match frames with
  | [] => out
  | frame :: rest =>
      let frame := corrected rotation_angle frame in
      write_frames rotation_angle rest (Cv2.write out frame)
  end.

(** The returned flag and the writer behind [output_path], if one was
    opened.  [cap] is [None] when the capture does not open; a division
    by a zero [slow_factor] raises and the handler returns [False]. *)
Definition slow_down_video (probe : Ffprobe)
    (cap : option (Cv2.VideoCapture Frame)) (slow_factor : Q) :
    bool * option (Cv2.VideoWriter Frame) :=
  let rotation_angle := get_video_rotation probe in
  match cap with
  | None => (false, None)
  | Some cap =>
      let original_fps := Cv2.CAP_PROP_FPS cap in
      let width := Py.int_of_number (Cv2.CAP_PROP_FRAME_WIDTH cap) in
      let height := Py.int_of_number (Cv2.CAP_PROP_FRAME_HEIGHT cap) in
      let size := output_size rotation_angle width height in
      match Py.truediv original_fps slow_factor with
      | None => (false, None)
      | Some new_fps =>
          let out := {| Cv2.vw_fps := new_fps; Cv2.vw_size := size;
                        Cv2.vw_frames := [] |} in
          (true, Some (write_frames rotation_angle (Cv2.decoded cap) out))
      end
  end.

End rotation.

End Main.

(* ===================================================================== *)
(** * Computations that mutate an object and may raise *)
(* ===================================================================== *)

Module Eff.

(** A method body: from the state before to an exception or a value,
    and the state after.  A raise keeps the mutations made so far. *)
Definition M (Exn S X : Type) : Type := S -> (Exn + X) * S.

Definition ret {Exn S X} (x : X) : M Exn S X := fun s => (inr x, s).

Definition raise {Exn S X} (e : Exn) : M Exn S X := fun s => (inl e, s).

Definition bind {Exn S X Y} (c : M Exn S X) (k : X -> M Exn S Y) :
    M Exn S Y :=
  fun s =>
    match c s with
    | (inl e, s') => (inl e, s')
    | (inr x, s') => k x s'
    end.

Definition get {Exn S} : M Exn S S := fun s => (inr s, s).

Definition modify {Exn S} (f : S -> S) : M Exn S unit :=
  fun s => (inr tt, f s).

(** [try: c  except Exception as e: h e]. *)
Definition try_except {Exn S X} (c : M Exn S X) (h : Exn -> M Exn S X) :
    M Exn S X :=
  fun s =>
    match c s with
    | (inl e, s') => h e s'
    | (inr x, s') => (inr x, s')
    end.

Declare Scope eff_scope.
Delimit Scope eff_scope with eff.

Notation "'let!' x ':=' c 'in' k" := (bind c (fun x => k))
  (at level 10, x name, c at level 100, k at level 200) : eff_scope.

Notation "c ';;' k" := (bind c (fun _ => k))
  (at level 100, k at level 200, right associativity) : eff_scope.

End Eff.

(* ===================================================================== *)
(** * pose_estimator_base.py *)
(* ===================================================================== *)

Module PoseEstimatorBase.

(** The abstract methods the processor calls, over an estimator state
    [E].  [detect_pose] returns [None] when no pose is found.  [truthy]
    is [bool(pose_data)]: the processor tests the dictionary itself. *)
Class PoseEstimator (Frame Pose E : Type) := {
  initialize : E -> bool * E;
  detect_pose : Frame -> E -> option Pose * E;
  draw_pose : E -> Frame -> Pose -> Frame;
  cleanup : E -> E;
  truthy : Pose -> bool
}.

End PoseEstimatorBase.

(* ===================================================================== *)
(** * video_pose_processor.py *)
(* ===================================================================== *)

Module VideoPoseProcessor.

Import Eff PoseEstimatorBase.

Inductive exn :=
  | FileNotFoundError
  | RuntimeError
  | ValueError
  | ZeroDivisionError.

(** One entry of [frame_data]. *)
Record FrameInfo (Pose : Type) := {
  frame_number : Z;
  timestamp : Q;
  pose_detected : bool;
  processing_time : Q;
  pose_data : option Pose
}.

Arguments frame_number {Pose} _.
Arguments timestamp {Pose} _.
Arguments pose_detected {Pose} _.
Arguments processing_time {Pose} _.
Arguments pose_data {Pose} _.

(** [self.stats] after the update. *)
Record Stats := {
  total_frames : Z;
  frames_with_pose : Z;
  total_processing_time : Q;
  avg_fps : Q;
  pose_detection_rate : Q
}.

(** The statistics update.  Both quotients are computed by the partial
    division, under the guards the code writes. *)
Definition finalize_stats (total_frames pose_detected_frames : Z)
    (total_processing_time : Q) : option Stats :=
  avg ← (if Qle_bool total_processing_time 0 then Some 0%Q
         else Py.truediv (inject_Z total_frames) total_processing_time);
  rate ← (if (total_frames >? 0)%Z
          then Py.truediv (inject_Z pose_detected_frames)
                          (inject_Z total_frames)
          else Some 0%Q);
  Some {| total_frames := total_frames;
          frames_with_pose := pose_detected_frames;
          total_processing_time := total_processing_time;
          avg_fps := avg;
          pose_detection_rate := rate |}.

Section processor.

Context {Frame Pose E : Type} `{!PoseEstimator Frame Pose E}.

(** [time.time()]: the value of its n-th call. *)
Variable clock : nat -> Q.

Variable save_video : bool.

(** The locals of [process_video] that the loop mutates, with the
    estimator and the number of clock readings taken. *)
Record Loop := {
  frame_data : list (FrameInfo Pose);
  frame_count : Z;
  pose_detected_frames : Z;
  pose_estimator : E;
  ticks : nat;
  video_writer : option (Cv2.VideoWriter Frame)
}.

Definition time_time : M exn Loop Q :=
  fun st =>
    (inr (clock (ticks st)),
     {| frame_data := frame_data st; frame_count := frame_count st;
        pose_detected_frames := pose_detected_frames st;
        pose_estimator := pose_estimator st; ticks := S (ticks st);
        video_writer := video_writer st |}).

Definition detect (frame : Frame) : M exn Loop (option Pose) :=
  fun st =>
    let '(pose, e) := detect_pose frame (pose_estimator st) in
    (inr pose,
     {| frame_data := frame_data st; frame_count := frame_count st;
        pose_detected_frames := pose_detected_frames st;
        pose_estimator := e; ticks := ticks st;
        video_writer := video_writer st |}).

Definition div (x y : Q) : M exn Loop Q :=
  match Py.truediv x y with
  | Some q => ret q
  | None => raise ZeroDivisionError
  end.

(** [if self.save_video: video_writer.write(frame)]. *)
Definition write_if_saving (frame : Frame) : M exn Loop unit :=
  if save_video then
    modify (fun st =>
      {| frame_data := frame_data st; frame_count := frame_count st;
         pose_detected_frames := pose_detected_frames st;
         pose_estimator := pose_estimator st; ticks := ticks st;
         video_writer := (fun w => Cv2.write w frame) <$> video_writer st |})
  else ret tt.

Definition count_pose : M exn Loop unit :=
  modify (fun st =>
    {| frame_data := frame_data st; frame_count := frame_count st;
       pose_detected_frames := (pose_detected_frames st + 1)%Z;
       pose_estimator := pose_estimator st; ticks := ticks st;
       video_writer := video_writer st |}).

(** [frame_data.append(frame_info); frame_count += 1]. *)
Definition append_frame (frame_info : FrameInfo Pose) : M exn Loop unit :=
  modify (fun st =>
    {| frame_data := frame_data st ++ [frame_info];
       frame_count := (frame_count st + 1)%Z;
       pose_detected_frames := pose_detected_frames st;
       pose_estimator := pose_estimator st; ticks := ticks st;
       video_writer := video_writer st |}).

Section loop.

Variables (fps total_frames : Z) (start_time : Q).

(** The progress report.  Its values are only logged, but computing
    them divides by [total_frames] and by [frame_count]. *)
Definition progress_update : M exn Loop unit :=
  (let! st := get in
   if (frame_count st mod 100 =? 0)%Z || (frame_count st =? total_frames)%Z
   then
     let! progress :=
       div (inject_Z (frame_count st)) (inject_Z total_frames) in
     let! now := time_time in
     let elapsed_time := (now - start_time)%Q in
     let! estimated_total :=
       div (elapsed_time * inject_Z total_frames)%Q
           (inject_Z (frame_count st)) in
     ret tt
   else ret tt)%eff.

(** The body of the [while] loop once [cap.read()] gave a frame. *)
Definition process_frame (frame : Frame) : M exn Loop unit :=
  (let! frame_start_time := time_time in
   let! pose := detect frame in
   let! frame_end_time := time_time in
   let frame_processing_time := (frame_end_time - frame_start_time)%Q in
   let! st := get in
   let! ts := div (inject_Z (frame_count st)) (inject_Z fps) in
   let found :=
     match pose with Some p => truthy p | None => false end in
   let frame_info :=
     {| frame_number := frame_count st;
        timestamp := ts;
        pose_detected := bool_decide (is_Some pose);
        processing_time := frame_processing_time;
        pose_data := if found then pose else None |} in
   (match pose with
    | Some p =>
        if truthy p then
          count_pose;;
          write_if_saving (draw_pose (pose_estimator st) frame p)
        else write_if_saving frame
    | None => write_if_saving frame
    end);;
   append_frame frame_info;;
   progress_update)%eff.

(** The [while True] loop: one iteration per decoded frame. *)
Fixpoint process_frames (frames : list Frame) : M exn Loop unit :=
  match frames with
  | [] => ret tt
  | frame :: rest => (process_frame frame;; process_frames rest)%eff
  end.

End loop.

(** What [process_video] leaves behind when it returns: the statistics,
    the [frame_data] list handed to [_save_keypoints_data], the annotated
    video and the estimator after [cleanup]. *)
Record Result := {
  statistics : Stats;
  frames : list (FrameInfo Pose);
  annotated : option (Cv2.VideoWriter Frame);
  estimator_after : E
}.

Inductive Outcome :=
  | Raised (e : exn)
  | Returned (r : Result).

Definition process_video (video_exists : bool)
    (cap : option (Cv2.VideoCapture Frame)) (estimator : E) : Outcome :=
  if negb video_exists then Raised FileNotFoundError else
  let '(ok, estimator) := initialize estimator in
  if negb ok then Raised RuntimeError else
  match cap with
  | None => Raised ValueError
  | Some cap =>
      let fps := Py.int_of_number (Cv2.CAP_PROP_FPS cap) in
      let width := Py.int_of_number (Cv2.CAP_PROP_FRAME_WIDTH cap) in
      let height := Py.int_of_number (Cv2.CAP_PROP_FRAME_HEIGHT cap) in
      let total_frames := Py.int_of_number (Cv2.CAP_PROP_FRAME_COUNT cap) in
      let writer :=
        if save_video
        then Some {| Cv2.vw_fps := inject_Z fps;
                     Cv2.vw_size := (width, height);
                     Cv2.vw_frames := [] |}
        else None in
      let start_time := clock 0 in
      let st0 := {| frame_data := []; frame_count := 0;
                    pose_detected_frames := 0;
                    pose_estimator := estimator; ticks := 1;
                    video_writer := writer |} in
      match process_frames fps total_frames start_time
                           (Cv2.decoded cap) st0 with
      | (inl e, _) => Raised e
      | (inr _, st) =>
          let total_processing_time := (clock (ticks st) - start_time)%Q in
          match finalize_stats total_frames (pose_detected_frames st)
                               total_processing_time with
          | None => Raised ZeroDivisionError
          | Some stats =>
              Returned {| statistics := stats;
                          frames := frame_data st;
                          annotated := video_writer st;
                          estimator_after := cleanup (pose_estimator st) |}
          end
      end
  end.

End processor.

End VideoPoseProcessor.

(* ===================================================================== *)
(** * video_analyzer_base.py *)
(* ===================================================================== *)

Module VideoAnalyzerBase.

(** The abstract methods, over an analyzer state [A].  A dictionary
    ([Dict[str, Any]]) is a finite map from keys to the text of their
    values.  [analyze_video] is given no additional data: the pipeline
    always passes [None]. *)
Class VideoAnalyzer (A : Type) := {
  initialize : A -> bool * A;
  upload_video : string -> A -> option string * A;
  analyze_video : string -> string -> A -> option (gmap string string) * A;
  cleanup_video : string -> A -> bool * A;
  get_model_info : A -> gmap string string
}.

End VideoAnalyzerBase.

(* ===================================================================== *)
(** * web-app/backend/gemini_analyzer.py *)
(* ===================================================================== *)

Module GeminiVideoAnalyzer.

Section gemini.

(** The remote service and the file objects it hands out are opaque. *)
Context {File Remote : Type}.

(** [uploaded_file.name]. *)
Variable name : File -> string.

(** [genai.delete_file(name)]: [false] when the call raises. *)
Variable delete_file : string -> Remote -> bool * Remote.

(** The part of [self] that [cleanup_video] touches. *)
Record Analyzer := {
  uploaded_files : gmap string File;
  service : Remote
}.

Definition cleanup_video (video_ref : string) (self : Analyzer) :
    bool * Analyzer :=
  match uploaded_files self !! video_ref with
  | None => (true, self)
  | Some uploaded_file =>
      let '(deleted, service') :=
        delete_file (name uploaded_file) (service self) in
      if deleted then
        (true, {| uploaded_files := delete video_ref (uploaded_files self);
                  service := service' |})
      else
        (false, {| uploaded_files := uploaded_files self;
                   service := service' |})
  end.

End gemini.

End GeminiVideoAnalyzer.

(* ===================================================================== *)
(** * web-app/backend/video_analysis_pipeline.py *)
(* ===================================================================== *)

Module VideoAnalysisPipeline.

Import Eff VideoAnalyzerBase.

Inductive exn :=
  | FileNotFoundError (msg : string)
  | RuntimeError (msg : string)
  | ValueError (msg : string).

(** [str(e)]. *)
Definition str (e : exn) : string :=
  match e with
  | FileNotFoundError msg => msg
  | RuntimeError msg => msg
  | ValueError msg => msg
  end.

(** The dictionary [analyze_video] returns. *)
Record AnalysisResult := {
  video_path : string;
  analyzer_info : gmap string string;
  prompt : string;
  analysis : gmap string string;
  additional_data_provided : bool
}.

(** A value of the batch dictionary: a result, or [{"error": str(e)}]. *)
Inductive Entry :=
  | Analysed (result : AnalysisResult)
  | Error (msg : string).

(** A file in the output directory. *)
Inductive Saved :=
  | AnalysisFile (result : AnalysisResult)
  | BatchFile (results : gmap string Entry).

(** The calls that leave the process, in the order they are made. *)
Inductive Event :=
  | Initialized (ok : bool)
  | Uploaded (path : string) (video_ref : option string)
  | Analyzed (video_ref : string) (ok : bool)
  | Written (file : string) (ok : bool)
  | CleanedUp (video_ref : string) (ok : bool).

(** One element of [video_configs], with the two keys the loop
    requires; the optional keys are read and passed on, and
    [analyze_video] ignores them. *)
Record Config := {
  config_video_path : string;
  config_prompt : string
}.

Section pipeline.

Context {A : Type} `{!VideoAnalyzer A}.

(** [os.path.exists]. *)
Variable path_exists : string -> bool.

(** Whether opening a file of the output directory for writing and
    dumping JSON into it goes through. *)
Variable writable : string -> bool.

(** [self]: the analyzer, the tracking list, the output directory, and
    the journal of outside calls. *)
Record Pipeline := {
  analyzer : A;
  uploaded_videos : list string;
  output_files : gmap string Saved;
  journal : list Event
}.

Definition call {X} (method : A -> X * A) : M exn Pipeline X :=
  fun self =>
    let '(x, a) := method (analyzer self) in
    (inr x,
     {| analyzer := a; uploaded_videos := uploaded_videos self;
        output_files := output_files self; journal := journal self |}).

Definition log (ev : Event) : M exn Pipeline unit :=
  modify (fun self =>
    {| analyzer := analyzer self; uploaded_videos := uploaded_videos self;
       output_files := output_files self;
       journal := journal self ++ [ev] |}).

Definition set_uploaded_videos (l : list string) (self : Pipeline) : Pipeline :=
  {| analyzer := analyzer self; uploaded_videos := l;
     output_files := output_files self; journal := journal self |}.

(** [self.uploaded_videos.append(video_ref)]. *)
Definition track (video_ref : string) : M exn Pipeline unit :=
  modify (fun self =>
    set_uploaded_videos (uploaded_videos self ++ [video_ref]) self).

(** [if video_ref in self.uploaded_videos:
       self.uploaded_videos.remove(video_ref)]. *)
Definition forget (video_ref : string) : M exn Pipeline unit :=
  modify (fun self =>
    match Py.list_remove video_ref (uploaded_videos self) with
    | Some l => set_uploaded_videos l self
    | None => self
    end).


(** Writing a file of the output directory; a failure is logged only. *)
Definition write_file (file : string) (content : Saved) :
    M exn Pipeline unit :=
  if writable file then
    modify (fun self =>
      {| analyzer := analyzer self; uploaded_videos := uploaded_videos self;
         output_files := <[file := content]> (output_files self);
         journal := journal self ++ [Written file true] |})
  else log (Written file false).

Definition result_file (video_path : string) : string :=
  "analysis_" +:+ Py.path_stem video_path +:+ ".json".

Definition save_analysis_result (video_path : string)
    (result : AnalysisResult) : M exn Pipeline unit :=
  write_file (result_file video_path) (AnalysisFile result).

Definition analyze_video (video_path prompt : string) (cleanup_after : bool) :
    M exn Pipeline AnalysisResult :=
  (if negb (path_exists video_path) then
     raise (FileNotFoundError ("Video file not found: " +:+ video_path))
   else
   let! ok := call initialize in
   log (Initialized ok);;
   if negb ok then raise (RuntimeError "Failed to initialize video analyzer")
   else
   let! uploaded := call (upload_video video_path) in
   log (Uploaded video_path uploaded);;
   match uploaded with
   | None => raise (RuntimeError "Failed to upload video")
   | Some video_ref =>
       if Py.is_empty video_ref
       then raise (RuntimeError "Failed to upload video")
       else
       track video_ref;;
       let! analysis_result :=
         call (VideoAnalyzerBase.analyze_video video_ref prompt) in
       log (Analyzed video_ref (bool_decide (is_Some analysis_result)));;
       match analysis_result with
       | None => raise (RuntimeError "Failed to analyze video")
       | Some analysis_result =>
           if decide (analysis_result = ∅)
           then raise (RuntimeError "Failed to analyze video")
           else
           let! self := get in
           let result :=
             {| video_path := video_path;
                analyzer_info := get_model_info (analyzer self);
                prompt := prompt;
                analysis := analysis_result;
                additional_data_provided := false |} in
           save_analysis_result video_path result;;
           (if cleanup_after then
              let! ok := call (cleanup_video video_ref) in
              log (CleanedUp video_ref ok);;
              forget video_ref
            else ret tt);;
           ret result
       end
   end)%eff.

(** The key an item is stored under: [Path(video_path).stem]. *)
Definition config_stem (config : Config) : string :=
  Py.path_stem (config_video_path config).

(** The [try]/[except Exception] of one iteration: the value stored for
    the item, a result or the text of the exception. *)
Definition item_entry (config : Config) (cleanup_after_each : bool) :
    M exn Pipeline Entry :=
  let video_path := config_video_path config in
  let prompt := config_prompt config in
  try_except
    (let! result := analyze_video video_path prompt cleanup_after_each in
     ret (Analysed result))%eff
    (fun e => ret (Error (str e))).

(** The loop of [batch_analyze]. *)
Fixpoint batch_loop (video_configs : list Config) (cleanup_after_each : bool)
    (results : gmap string Entry) : M exn Pipeline (gmap string Entry) :=
  match video_configs with
  | [] => ret results
  | config :: rest =>
      (let! entry := item_entry config cleanup_after_each in
       batch_loop rest cleanup_after_each
                  (<[config_stem config := entry]> results))%eff
  end.

Definition batch_analyze (video_configs : list Config)
    (cleanup_after_each : bool) : M exn Pipeline (gmap string Entry) :=
  (let! results := batch_loop video_configs cleanup_after_each ∅ in
   write_file "batch_analysis_results.json" (BatchFile results);;
   ret results)%eff.



End pipeline.

End VideoAnalysisPipeline.

(* ===================================================================== *)
(** * Sample inputs *)
(* ===================================================================== *)

(** Concrete videos, probes, estimators and analyzers on which the
    theorems below are instantiated. *)
Module Samples.

(** A frame is its position in the source and the rotations applied. *)
Definition Frame : Type := nat * list Cv2.RotateCode.

Definition rotate (code : Cv2.RotateCode) (frame : Frame) : Frame :=
  (frame.1, frame.2 ++ [code]).

(** A 1920x1080 clip with the given container properties and [n]
    decodable frames. *)
Definition clip (fps reported_count : Q) (n : nat) : Cv2.VideoCapture Frame :=
  {| Cv2.CAP_PROP_FPS := fps;
     Cv2.CAP_PROP_FRAME_WIDTH := 1920;
     Cv2.CAP_PROP_FRAME_HEIGHT := 1080;
     Cv2.CAP_PROP_FRAME_COUNT := reported_count;
     Cv2.decoded := (fun i => (i, [])) <$> seq 0 n |}.

(** ffprobe output with one video stream carrying a display matrix. *)
Definition display_matrix_probe (rotation : Z) : Main.Ffprobe :=
  Main.ProbeExit 0
    (Some [ {| Main.codec_type := Some "video";
               Main.side_data_list :=
                 [ {| Main.side_data_type := Some "Display Matrix";
                      Main.rotation := Some rotation |} ];
               Main.tags_rotate := None |} ]).

(** An estimator that finds a pose in every frame and draws nothing. *)
Definition always_detects : PoseEstimatorBase.PoseEstimator Frame unit unit :=
  {| PoseEstimatorBase.initialize := fun e => (true, e);
     PoseEstimatorBase.detect_pose := fun _ e => (Some tt, e);
     PoseEstimatorBase.draw_pose := fun _ frame _ => frame;
     PoseEstimatorBase.cleanup := fun e => e;
     PoseEstimatorBase.truthy := fun _ => true |}.

(** A clock that advances one second per reading. *)
Definition seconds (n : nat) : Q := inject_Z (Z.of_nat n).

(** An analyzer whose upload fails for one path and whose cleanup
    always fails. *)
Definition flaky : VideoAnalyzerBase.VideoAnalyzer unit :=
  {| VideoAnalyzerBase.initialize := fun a => (true, a);
     VideoAnalyzerBase.upload_video := fun path a =>
       (if String.eqb path "clips/b.mp4" then None
        else Some ("files/" +:+ path), a);
     VideoAnalyzerBase.analyze_video := fun video_ref prompt a =>
       (Some {[ "analysis" := prompt ]}, a);
     VideoAnalyzerBase.cleanup_video := fun _ a => (false, a);
     VideoAnalyzerBase.get_model_info := fun _ => {[ "name" := "Flaky" ]} |}.

(** A pipeline that has written nothing yet and tracks the handles [l]. *)
Definition pipeline_tracking (l : list string) :
    VideoAnalysisPipeline.Pipeline (A := unit) :=
  {| VideoAnalysisPipeline.analyzer := tt;
     VideoAnalysisPipeline.uploaded_videos := l;
     VideoAnalysisPipeline.output_files := ∅;
     VideoAnalysisPipeline.journal := [] |}.

Definition fresh_pipeline : VideoAnalysisPipeline.Pipeline (A := unit) :=
  pipeline_tracking [].

(** A file system where every path exists, and output directories that
    can and cannot be written. *)
Definition everywhere (_ : string) : bool := true.


Definition config (path : string) : VideoAnalysisPipeline.Config :=
  {| VideoAnalysisPipeline.config_video_path := path;
     VideoAnalysisPipeline.config_prompt := "Describe the serve" |}.

(** A Gemini analyzer tracking one file, handle and name alike. *)
Definition tracking (video_ref : string) :
    GeminiVideoAnalyzer.Analyzer (File := string) (Remote := unit) :=
  {| GeminiVideoAnalyzer.uploaded_files := {[ video_ref := video_ref ]};
     GeminiVideoAnalyzer.service := tt |}.

(** A service that refuses every deletion, and one that accepts all. *)
Definition refuses (_ : string) (r : unit) : bool * unit := (false, r).

Definition accepts (_ : string) (r : unit) : bool * unit := (true, r).

End Samples.

(* ===================================================================== *)
(** * More sample inputs *)
(* ===================================================================== *)

Module MoreSamples.

(** The size of a sample frame, width first: a 1920x1080 picture whose
    sides change places with every quarter turn applied to it. *)
Definition dims (frame : Samples.Frame) : Z * Z :=
  let quarter_turns :=
    length (List.filter
              (fun code =>
                 match code with Cv2.ROTATE_180 => false | _ => true end)
              frame.2) in
  if Nat.even quarter_turns then (1920, 1080)%Z else (1080, 1920)%Z.

(** ffprobe output with an audio stream that carries a display matrix,
    then a video stream with both a display matrix and a rotate tag. *)
Definition mixed_probe : Main.Ffprobe :=
  Main.ProbeExit 0
    (Some [ {| Main.codec_type := Some "audio";
               Main.side_data_list :=
                 [ {| Main.side_data_type := Some "Display Matrix";
                      Main.rotation := Some 180%Z |} ];
               Main.tags_rotate := Some "270" |};
            {| Main.codec_type := Some "video";
               Main.side_data_list :=
                 [ {| Main.side_data_type := Some "Display Matrix";
                      Main.rotation := Some (-90)%Z |} ];
               Main.tags_rotate := Some "180" |} ]).

End MoreSamples.

(* ===================================================================== *)
(** * Facts about the built-ins *)
(* ===================================================================== *)

Module PyFacts.

Lemma split_nonempty c s : Py.split c s <> [].
Proof. destruct s as [|d s]; simpl; [done|]. by repeat case_match. Qed.

Lemma contains_split_length c s :
  Py.contains c s = true <-> 2 <= length (Py.split c s).
Proof.
  induction s as [|d s IH]; simpl.
  - split; [done | lia].
  - destruct (Ascii.eqb d c).
    + pose proof (split_nonempty c s) as Hne.
      destruct (Py.split c s); simpl; [done | split; [lia | done]].
    + rewrite IH. destruct (Py.split c s); simpl; [lia | done].
Qed.

Lemma truediv_Some x y : ~ (y == 0)%Q -> Py.truediv x y = Some (x / y)%Q.
Proof.
  intros Hy. unfold Py.truediv.
  destruct (Qeq_bool y 0) eqn:E; [|done].
  by apply Qeq_bool_iff in E.
Qed.

Lemma truediv_zero x : Py.truediv x 0 = None.
Proof. done. Qed.

Lemma int_of_number_inject_Z z : Py.int_of_number (inject_Z z) = z.
Proof. unfold Py.int_of_number; simpl. apply Z.quot_1_r. Qed.






Lemma list_remove_None x l : x ∉ l -> Py.list_remove x l = None.
Proof.
  induction l as [|y l IH]; simpl; intros Hx; [done|].
  apply not_elem_of_cons in Hx as [Hne Hx].
  destruct (String.eqb_spec y x) as [->|_]; [done|].
  by rewrite IH.
Qed.

(** The stem drops the directories and the last suffix only. *)
Example path_stem_samples :
  Py.path_stem "a/serve.mp4" = "serve"
  /\ Py.path_stem "b/serve.mov" = "serve"
  /\ Py.path_stem "clips/serve.tar.gz" = "serve.tar"
  /\ Py.path_stem "clips/.hidden" = ".hidden"
  /\ Py.path_stem "clips/" = "clips".
Proof. by repeat split. Qed.

End PyFacts.

(* ===================================================================== *)
(** * Timestamp parsing *)
(* ===================================================================== *)

Module TimestampFacts.

Import Main PyFacts.

Section facts.

Variable float_of_str : string -> option float.

(** A bare number maps to its [float] value. *)
Lemma timestamp_bare ts x :
  Py.contains ":" ts = false ->
  float_of_str ts = Some x ->
  timestamp_to_seconds float_of_str ts = PyFloat x.
Proof.
  intros Hc Hx. unfold timestamp_to_seconds, timestamp_body.
  by rewrite Hc, Hx.
Qed.

(** ["M:SS"] maps to minutes * 60 + seconds. *)
Lemma timestamp_two_parts ts minutes seconds m s :
  Py.split ":" ts = [minutes; seconds] ->
  float_of_str minutes = Some m ->
  float_of_str seconds = Some s ->
  timestamp_to_seconds float_of_str ts = PyFloat (m * 60 + s)%float.
Proof.
  intros Hsplit Hm Hs. unfold timestamp_to_seconds, timestamp_body.
  assert (Py.contains ":" ts = true) as ->.
  { apply contains_split_length. rewrite Hsplit. simpl. lia. }
  by rewrite Hsplit, Hm; simpl; rewrite Hs.
Qed.

(** ["H:MM:SS"] maps to hours * 3600 + minutes * 60 + seconds. *)
Lemma timestamp_three_parts ts hours minutes seconds h m s :
  Py.split ":" ts = [hours; minutes; seconds] ->
  float_of_str hours = Some h ->
  float_of_str minutes = Some m ->
  float_of_str seconds = Some s ->
  timestamp_to_seconds float_of_str ts
  = PyFloat (h * 3600 + m * 60 + s)%float.
Proof.
  intros Hsplit Hh Hm Hs. unfold timestamp_to_seconds, timestamp_body.
  assert (Py.contains ":" ts = true) as ->.
  { apply contains_split_length. rewrite Hsplit. simpl. lia. }
  by rewrite Hsplit, Hh; simpl; rewrite Hm; simpl; rewrite Hs.
Qed.

(** With at most three parts, a part that [float] rejects gives the
    fallback [0.0]. *)
Lemma timestamp_unparsable ts part :
  (length (Py.split ":" ts) <= 3)%nat ->
  part ∈ Py.split ":" ts ->
  float_of_str part = None ->
  timestamp_to_seconds float_of_str ts = PyFloat 0%float.
Proof.
  intros Hlen Hin Hnone. unfold timestamp_to_seconds, timestamp_body.
  destruct (Py.contains ":" ts) eqn:Hc.
  - apply contains_split_length in Hc.
    destruct (Py.split ":" ts) as [|a [|b [|c [|d l]]]];
      simpl in *; try lia.
    + set_unfold in Hin. destruct Hin as [->|[->|[]]].
      * by rewrite Hnone.
      * rewrite Hnone. by destruct (float_of_str a).
    + set_unfold in Hin. destruct Hin as [->|[->|[->|[]]]].
      * by rewrite Hnone.
      * rewrite Hnone. by destruct (float_of_str a).
      * rewrite Hnone.
        by destruct (float_of_str a), (float_of_str b).
  - assert (Py.split ":" ts = [ts]) as Hts.
    { clear -Hc. induction ts as [|d s IH]; simpl in *; [done|].
      destruct (Ascii.eqb d ":"); [done|]. by rewrite IH. }
    rewrite Hts in Hin. apply list_elem_of_singleton in Hin as ->.
    by rewrite Hnone.
Qed.

(** The function hands back [None] exactly on four parts or more. *)
Lemma timestamp_none_iff ts :
  timestamp_to_seconds float_of_str ts = PyNone
  <-> (4 <= length (Py.split ":" ts))%nat.
Proof.
  unfold timestamp_to_seconds, timestamp_body.
  destruct (Py.contains ":" ts) eqn:Hc.
  - apply contains_split_length in Hc.
    destruct (Py.split ":" ts) as [|a [|b [|c [|d l]]]];
      simpl in *; try lia.
    + destruct (float_of_str a), (float_of_str b); simpl; split;
        (done || lia).
    + destruct (float_of_str a), (float_of_str b), (float_of_str c);
        simpl; split; (done || lia).
    + split; [lia | done].
  - assert (~ (2 <= length (Py.split ":" ts))%nat) as Hlen.
    { rewrite <- contains_split_length. by rewrite Hc. }
    destruct (float_of_str ts); simpl; split; (done || lia).
Qed.

End facts.

(** The literals of the documentation and of the prompt template. *)
Example timestamp_0_04 :
  timestamp_to_seconds short_decimal "0:04" = PyFloat 4%float.
Proof. reflexivity. Qed.

Example timestamp_1_02_03 :
  timestamp_to_seconds short_decimal "1:02:03" = PyFloat 3723%float.
Proof. reflexivity. Qed.

Example timestamp_12_5 :
  timestamp_to_seconds short_decimal "12.5" = PyFloat 12.5%float.
Proof. reflexivity. Qed.

Example timestamp_abc :
  timestamp_to_seconds short_decimal "abc" = PyFloat 0%float.
Proof. reflexivity. Qed.

(** C1, at the input where the code departs from it: a colon string of
    four parts is neither parsed nor mapped to the fallback [0.0]; the
    function returns [None], whatever [float] accepts.  In general the
    result is [None] exactly when the string has four parts or more. *)
Theorem timestamp_four_parts_is_none (float_of_str : string -> option float) :
  timestamp_to_seconds float_of_str "1:2:3:4" = PyNone
  /\ forall ts,
       timestamp_to_seconds float_of_str ts = PyNone
       <-> (4 <= length (Py.split ":" ts))%nat.
Proof.
  split; [reflexivity | apply timestamp_none_iff].
Qed.

End TimestampFacts.

(* ===================================================================== *)
(** * Frame extraction *)
(* ===================================================================== *)

Module FrameExtractionFacts.

Import Main PyFacts.






(** Through the whole function: the frame decoded is the one at that
    position. *)
Example extract_past_the_end :
  extract_frame_at_timestamp (Some (Samples.clip 30 300 300)) 15
  = Some (299%Z, (299%nat, [])).
Proof. vm_compute. reflexivity. Qed.

End FrameExtractionFacts.

(* ===================================================================== *)
(** * Rotation metadata and slow motion *)
(* ===================================================================== *)

Module NormalizerFacts.

Import Main PyFacts.

Section facts.

Variable int_of_str : string -> option Z.

Context {Frame : Type}.

Variable cv2_rotate : Cv2.RotateCode -> Frame -> Frame.

(** Every failure of the probe gives the fallback. *)
Lemma rotation_fallback returncode stdout :
  get_video_rotation int_of_str ProbeRaised = 0%Z
  /\ (returncode <> 0%Z ->
      get_video_rotation int_of_str (ProbeExit returncode stdout) = 0%Z)
  /\ get_video_rotation int_of_str (ProbeExit 0 None) = 0%Z
  /\ get_video_rotation int_of_str (ProbeExit 0 (Some [])) = 0%Z.
Proof.
  repeat split; try done.
  intros Hrc. simpl. by destruct (Z.eqb_spec returncode 0).
Qed.

(** A display matrix is negated and returned as it is. *)
Lemma rotation_of_display_matrix r :
  get_video_rotation int_of_str (Samples.display_matrix_probe r) = (- r)%Z.
Proof. reflexivity. Qed.

(** A quarter turn swaps the sides of the output; nothing else does. *)
Lemma output_size_quarter_turn angle width height :
  angle = 90%Z \/ angle = 270%Z ->
  output_size angle width height = (height, width).
Proof. by intros [->| ->]. Qed.

Lemma output_size_otherwise angle width height :
  angle <> 90%Z -> angle <> 270%Z ->
  output_size angle width height = (width, height).
Proof.
  intros H1 H2. unfold output_size.
  by destruct (Z.eqb_spec angle 90), (Z.eqb_spec angle 270).
Qed.

(** The loop appends the corrected frames, in order, once each. *)
Lemma write_frames_appends angle frames out :
  Cv2.vw_frames (write_frames cv2_rotate angle frames out)
  = Cv2.vw_frames out ++ (corrected cv2_rotate angle <$> frames)
  /\ Cv2.vw_fps (write_frames cv2_rotate angle frames out) = Cv2.vw_fps out
  /\ Cv2.vw_size (write_frames cv2_rotate angle frames out) = Cv2.vw_size out.
Proof.
  revert out. induction frames as [|frame rest IH]; intros out; simpl.
  - by rewrite app_nil_r.
  - destruct (IH (Cv2.write out (corrected cv2_rotate angle frame)))
      as (-> & -> & ->).
    simpl. by rewrite <- app_assoc.
Qed.

End facts.

(** C3, at the input where the code departs from it: a stream whose
    display matrix reports a rotation of 90 makes [get_video_rotation]
    return -90, which is none of 0, 90, 180, 270; the writer is then
    opened with the sides unswapped and the frames pass unrotated. *)
Theorem rotation_is_not_normalized (int_of_str : string -> option Z) :
  get_video_rotation int_of_str (Samples.display_matrix_probe 90) = (-90)%Z
  /\ slow_down_video int_of_str Samples.rotate
       (Samples.display_matrix_probe 90) (Some (Samples.clip 30 2 2)) 2
     = (true,
        Some {| Cv2.vw_fps := (30 / 2)%Q;
                Cv2.vw_size := (1920, 1080)%Z;
                Cv2.vw_frames := [(0%nat, []); (1%nat, [])] |}).
Proof. split; reflexivity. Qed.

(** The case the code does get right: a display matrix of -90 gives 90,
    the sides are swapped and every frame is turned clockwise. *)
Example rotation_portrait (int_of_str : string -> option Z) :
  slow_down_video int_of_str Samples.rotate
    (Samples.display_matrix_probe (-90)) (Some (Samples.clip 30 2 2)) 2
  = (true,
     Some {| Cv2.vw_fps := (30 / 2)%Q;
             Cv2.vw_size := (1080, 1920)%Z;
             Cv2.vw_frames := [(0%nat, [Cv2.ROTATE_90_CLOCKWISE]);
                               (1%nat, [Cv2.ROTATE_90_CLOCKWISE])] |}).
Proof. reflexivity. Qed.




End NormalizerFacts.

(* ===================================================================== *)
(** * The frame loop and its statistics *)
(* ===================================================================== *)

Module PoseProcessorFacts.

Import VideoPoseProcessor Eff PoseEstimatorBase PyFacts.

Lemma truediv_inject_Z_None x z :
  Py.truediv x (inject_Z z) = None -> z = 0%Z.
Proof.
  unfold Py.truediv. destruct (Qeq_bool (inject_Z z) 0) eqn:Hz; [|done].
  intros _. apply Qeq_bool_iff in Hz. unfold Qeq in Hz. simpl in Hz. lia.
Qed.

Lemma truediv_inject_Z x z :
  z <> 0%Z -> Py.truediv x (inject_Z z) = Some (x / inject_Z z)%Q.
Proof. intros Hz. apply truediv_Some. unfold Qeq. simpl. lia. Qed.

(** The statistics update never divides by zero. *)
Lemma finalize_stats_is_Some total pose time :
  is_Some (finalize_stats total pose time).
Proof.
  unfold finalize_stats.
  destruct (Qle_bool time 0) eqn:Htime; simpl.
  - destruct (Z.gtb_spec total 0); simpl; [|by eexists].
    rewrite truediv_inject_Z by lia. by eexists.
  - rewrite (truediv_Some (inject_Z total) time).
    2: { intros E.
         assert (Qle_bool time 0 = true) as Hle
           by (apply Qle_bool_iff; rewrite E; apply Qle_refl).
         congruence. }
    simpl. destruct (Z.gtb_spec total 0); simpl; [|by eexists].
    rewrite truediv_inject_Z by lia. by eexists.
Qed.

(** What the update stores. *)
Lemma finalize_stats_spec total pose time s :
  finalize_stats total pose time = Some s ->
  total_frames s = total
  /\ frames_with_pose s = pose
  /\ total_processing_time s = time
  /\ ((0 < total)%Z ->
      pose_detection_rate s = (inject_Z pose / inject_Z total)%Q)
  /\ ((total <= 0)%Z -> pose_detection_rate s = 0%Q)
  /\ ((0 < time)%Q -> avg_fps s = (inject_Z total / time)%Q)
  /\ ((time <= 0)%Q -> avg_fps s = 0%Q).
Proof.
  unfold finalize_stats. intros H.
  destruct (Qle_bool time 0) eqn:Htime; simpl in H.
  - apply Qle_bool_iff in Htime.
    destruct (Z.gtb_spec total 0); simpl in H.
    + rewrite truediv_inject_Z in H by lia. simplify_eq/=.
      repeat split; try done; try lia.
      intros Hpos. by apply Qlt_not_le in Hpos.
    + simplify_eq/=. repeat split; try done; try lia.
      intros Hpos. by apply Qlt_not_le in Hpos.
  - assert (~ (time <= 0)%Q) as Hpos.
    { intros Hle. apply Qle_bool_iff in Hle. congruence. }
    rewrite (truediv_Some (inject_Z total) time) in H.
    2: { intros E. apply Hpos. rewrite E. apply Qle_refl. }
    simpl in H. destruct (Z.gtb_spec total 0); simpl in H.
    + rewrite truediv_inject_Z in H by lia. simplify_eq/=.
      repeat split; try done; lia.
    + simplify_eq/=. repeat split; try done; lia.
Qed.


Section facts.

Context {Frame Pose E : Type} `{!PoseEstimator Frame Pose E}.

Variable clock : nat -> Q.

Variable save_video : bool.

Variables (fps total_frames : Z) (start_time : Q).

(** One iteration: it appends one record numbered by the current count
    and stamped count / fps, and counts at most one pose; it raises
    only by a division by zero. *)
Lemma process_frame_spec frame st :
  match process_frame clock save_video fps total_frames start_time
                      frame st with
  | (inr _, st') =>
      exists info,
        frame_data st' = frame_data st ++ [info]
        /\ frame_number info = frame_count st
        /\ Py.truediv (inject_Z (frame_count st)) (inject_Z fps)
           = Some (timestamp info)
        /\ frame_count st' = (frame_count st + 1)%Z
        /\ (pose_detected_frames st <= pose_detected_frames st'
            <= pose_detected_frames st + 1)%Z
  | (inl e, _) =>
      e = ZeroDivisionError
      /\ (fps = 0%Z
          \/ (total_frames = 0%Z /\ ((frame_count st + 1) mod 100 = 0)%Z)
          \/ (frame_count st + 1 = 0)%Z)
  end.
Proof.
  unfold process_frame, progress_update, bind, time_time, detect, get, div,
    append_frame, count_pose, write_if_saving, modify, ret, raise.
  simpl.
  destruct (detect_pose frame (pose_estimator st)) as [pose e]. simpl.
  destruct (Py.truediv (inject_Z (frame_count st)) (inject_Z fps))
    as [ts|] eqn:Hts.
  2: { split; [done|]. left. by apply truediv_inject_Z_None in Hts. }
  destruct pose as [p|]; [destruct (truthy p)|]; destruct save_video; simpl;
    (destruct ((_ `mod` 100 =? 0)%Z || (_ =? total_frames)%Z) eqn:Hc; simpl;
     [ destruct (Py.truediv (inject_Z (frame_count st + 1))
                            (inject_Z total_frames)) eqn:Hp; simpl;
       [ destruct (Py.truediv _ (inject_Z (frame_count st + 1))) eqn:Hq;
         simpl
       | ]
     | ]);
    try (eexists; simpl; repeat split; (done || lia)).
  all: split; [done|].
  all: try (apply truediv_inject_Z_None in Hq; right; right; done).
  all: apply truediv_inject_Z_None in Hp; subst total_frames.
  all: apply orb_true_iff in Hc as [Hc|Hc];
    [ apply Z.eqb_eq in Hc; right; left; done
    | apply Z.eqb_eq in Hc; right; right; done ].
Qed.

(** The loop: one record per decoded frame, numbered consecutively from
    the count it starts with; it raises only by a division by zero, on
    a zero frame rate or when a zero reported frame count meets the
    progress report of the hundredth frame. *)
Lemma process_frames_spec (frames : list Frame) st :
  (0 <= frame_count st)%Z ->
  match process_frames clock save_video fps total_frames start_time
                       frames st with
  | (inr _, st') =>
      exists infos,
        frame_data st' = frame_data st ++ infos
        /\ length infos = length frames
        /\ (forall (i : nat) info, infos !! i = Some info ->
              frame_number info = (frame_count st + Z.of_nat i)%Z
              /\ Py.truediv (inject_Z (frame_count st + Z.of_nat i))
                            (inject_Z fps)
                 = Some (timestamp info))
        /\ frame_count st' = (frame_count st + Z.of_nat (length frames))%Z
        /\ (pose_detected_frames st <= pose_detected_frames st'
            <= pose_detected_frames st + Z.of_nat (length frames))%Z
  | (inl e, _) =>
      e = ZeroDivisionError
      /\ (fps = 0%Z
          \/ (total_frames = 0%Z
              /\ (100 <= frame_count st + Z.of_nat (length frames))%Z))
  end.
Proof.
  revert st. induction frames as [|frame rest IH]; intros st Hcount; simpl.
  - exists []. rewrite app_nil_r.
    split; [done|]. split; [done|]. split; [|lia].
    intros i info Hi. by rewrite lookup_nil in Hi.
  - unfold bind.
    pose proof (process_frame_spec frame st) as Hstep.
    destruct (process_frame _ _ _ _ _ frame st) as [[e|[]] st1].
    + destruct Hstep as [-> [?|[[-> Hmod]|?]]]; (split; [done|]);
        [by left | right | lia].
      split; [done|].
      apply Z.mod_divide in Hmod; [|done]. destruct Hmod as [k Hk]. lia.
    + destruct Hstep as (info & Hdata & Hnum & Hts & Hnext & Hpose).
      specialize (IH st1 ltac:(lia)).
      destruct (process_frames _ _ _ _ _ rest st1) as [[e|[]] st2].
      * destruct IH as [-> [?|[-> ?]]]; (split; [done|]); [by left|].
        right. split; [done | lia].
      * destruct IH as (infos & Hdata' & Hlen & Hall & Hnext' & Hpose').
        exists (info :: infos). rewrite Hdata', Hdata, <- app_assoc.
        split; [done|]. split; [simpl; lia|]. split; [|lia].
        intros [|i] info' Hi; simpl in Hi.
        -- simplify_eq. by rewrite Z.add_0_r.
        -- destruct (Hall i info' Hi) as [Hn Ht].
           split; [lia|]. rewrite <- Ht. do 2 f_equal. lia.
Qed.

End facts.

Section pass.

Context {Frame Pose E : Type} `{!PoseEstimator Frame Pose E}.

Variable clock : nat -> Q.

Variable save_video : bool.

(** A pass that returns went through every decoded frame. *)
Lemma process_video_returned video_exists (cap : Cv2.VideoCapture Frame)
    estimator r :
  process_video clock save_video video_exists (Some cap) estimator
  = Returned r ->
  let fps := Py.int_of_number (Cv2.CAP_PROP_FPS cap) in
  let total := Py.int_of_number (Cv2.CAP_PROP_FRAME_COUNT cap) in
  length (frames r) = length (Cv2.decoded cap)
  /\ (forall (i : nat) info, frames r !! i = Some info ->
        frame_number info = Z.of_nat i
        /\ Py.truediv (inject_Z (Z.of_nat i)) (inject_Z fps)
           = Some (timestamp info))
  /\ (0 <= frames_with_pose (statistics r)
       <= Z.of_nat (length (Cv2.decoded cap)))%Z
  /\ exists time,
       finalize_stats total (frames_with_pose (statistics r)) time
       = Some (statistics r).
Proof.
  unfold process_video. intros Hrun.
  destruct video_exists; simpl in Hrun; [|done].
  destruct (initialize estimator) as [[] estimator']; simpl in Hrun; [|done].
  match type of Hrun with
  | context [process_frames _ _ ?f ?t ?s0 ?fs ?st0] =>
      pose proof (process_frames_spec clock save_video f t s0 fs st0) as Hloop;
      destruct (process_frames clock save_video f t s0 fs st0)
        as [[e|[]] st]
  end; [done|].
  specialize (Hloop ltac:(simpl; lia)).
  destruct Hloop as (infos & Hdata & Hlen & Hall & _ & Hpose).
  simpl in *.
  destruct (finalize_stats _ _ _) as [stats|] eqn:Hstats; [|done].
  injection Hrun as <-. simpl.
  pose proof (finalize_stats_spec _ _ _ _ Hstats) as (_ & Hfw & _).
  rewrite Hdata, Hfw. split; [done|]. split; [|split; [lia|]].
  - intros i info Hi. destruct (Hall i info Hi) as [-> <-]. done.
  - eexists. by rewrite Hstats.
Qed.

(** The pass returns as soon as the video opens, the estimator
    initializes, the truncated frame rate is not zero and the progress
    report never meets a zero reported frame count. *)
Lemma process_video_returns (cap : Cv2.VideoCapture Frame) estimator :
  (initialize estimator).1 = true ->
  Py.int_of_number (Cv2.CAP_PROP_FPS cap) <> 0%Z ->
  Py.int_of_number (Cv2.CAP_PROP_FRAME_COUNT cap) <> 0%Z
  \/ (length (Cv2.decoded cap) < 100)%nat ->
  exists r,
    process_video clock save_video true (Some cap) estimator = Returned r.
Proof.
  unfold process_video. intros Hinit Hfps Hprogress. simpl.
  destruct (initialize estimator) as [ok estimator']. simpl in Hinit.
  subst ok. simpl.
  match goal with
  | |- context [process_frames _ _ ?f ?t ?s0 ?fs ?st0] =>
      pose proof (process_frames_spec clock save_video f t s0 fs st0) as Hloop;
      destruct (process_frames clock save_video f t s0 fs st0)
        as [[e|[]] st]
  end.
  - specialize (Hloop ltac:(simpl; lia)). simpl in Hloop.
    destruct Hloop as [_ [?|[? ?]]]; [done|]. destruct Hprogress; [done|lia].
  - match goal with
    | |- context [finalize_stats ?t ?p ?time] =>
        destruct (finalize_stats_is_Some t p time) as [stats ->]
    end.
    by eexists.
Qed.

End pass.




Lemma truediv_Some_inv x y q :
  Py.truediv x y = Some q -> q = (x / y)%Q /\ ~ (y == 0)%Q.
Proof.
  unfold Py.truediv. destruct (Qeq_bool y 0) eqn:Hy; [done|].
  intros [= <-]. split; [done|]. intros E.
  apply Qeq_bool_iff in E. congruence.
Qed.

(** Whenever the pass returns, the records are one per decoded frame,
    in decode order: the record at position i is numbered i and stamped
    i / fps, with fps the truncated frame rate of the container. *)
Lemma frame_records_in_decode_order {Frame Pose E : Type}
    `{!PoseEstimator Frame Pose E} (clock : nat -> Q)
    (save_video video_exists : bool) (cap : Cv2.VideoCapture Frame)
    (estimator : E) r :
  process_video clock save_video video_exists (Some cap) estimator
  = Returned r ->
  length (frames r) = length (Cv2.decoded cap)
  /\ forall (i : nat) info, frames r !! i = Some info ->
       frame_number info = Z.of_nat i
       /\ Py.int_of_number (Cv2.CAP_PROP_FPS cap) <> 0%Z
       /\ timestamp info
          = (inject_Z (frame_number info)
             / inject_Z (Py.int_of_number (Cv2.CAP_PROP_FPS cap)))%Q.
Proof.
  intros Hrun.
  destruct (process_video_returned _ _ _ _ _ _ Hrun) as (Hlen & Hall & _).
  split; [done|]. intros i info Hi.
  destruct (Hall i info Hi) as [Hn Ht].
  apply truediv_Some_inv in Ht as [Ht Hfps]. rewrite Hn.
  split; [done|]. split; [|done].
  intros E0. apply Hfps. by rewrite E0.
Qed.

(** Ten frames at 30 fps come out as ten records. *)
Lemma frame_records_in_decode_order_witness :
  exists r,
    process_video Samples.seconds true true (Some (Samples.clip 30 10 10)) tt
      (PoseEstimator0 := Samples.always_detects)
    = Returned r
    /\ length (frames r) = 10%nat
    /\ (pose_detection_rate (statistics r) == 1)%Q.
Proof.
  eexists. split; [vm_compute; reflexivity|]. split; [|reflexivity].
  eapply (frame_records_in_decode_order
            (PoseEstimator0 := Samples.always_detects)
            Samples.seconds true true (Samples.clip 30 10 10) tt).
  vm_compute. reflexivity.
Defined.

(** C5, at the inputs where the code departs from it.  A container that
    reports a frame count of 0 and decodes 100 frames: the progress
    report of the hundredth frame divides by the reported count, the
    pass raises and no record is produced.  A container whose frame
    rate truncates to 0: the first timestamp already divides by zero. *)
Theorem frame_records_lost_by_division (save_video : bool) :
  process_video Samples.seconds save_video true
    (Some (Samples.clip 30 0 100)) tt
    (PoseEstimator0 := Samples.always_detects)
  = Raised ZeroDivisionError
  /\ process_video Samples.seconds save_video true
       (Some (Samples.clip (1 # 2) 10 10)) tt
       (PoseEstimator0 := Samples.always_detects)
     = Raised ZeroDivisionError.
Proof. destruct save_video; split; vm_compute; reflexivity. Qed.

(** One frame fewer and the same container goes through. *)
Example ninety_nine_frames_pass :
  exists r,
    process_video Samples.seconds false true
      (Some (Samples.clip 30 0 99)) tt
      (PoseEstimator0 := Samples.always_detects)
    = Returned r
    /\ length (frames r) = 99%nat.
Proof.
  destruct (process_video_returns (PoseEstimator0 := Samples.always_detects)
              Samples.seconds false (Samples.clip 30 0 99) tt)
    as [r Hr];
    [done | done | right; unfold Samples.clip, Cv2.decoded;
                   rewrite length_fmap, length_seq; lia |].
  exists r. split; [done|].
  destruct (frame_records_in_decode_order _ _ _ _ _ _ Hr) as [-> _].
  unfold Samples.clip, Cv2.decoded. by rewrite length_fmap, length_seq.
Qed.

End PoseProcessorFacts.

(* ===================================================================== *)
(** * Artifact cleanup in the Gemini analyzer *)
(* ===================================================================== *)

Module GeminiFacts.

Import GeminiVideoAnalyzer.

Section facts.

Context {File Remote : Type}.

Variable name : File -> string.

Variable delete_file : string -> Remote -> bool * Remote.

(** A handle that is not tracked: success, and nothing changes. *)
Lemma cleanup_untracked video_ref (self : Analyzer) :
  uploaded_files self !! video_ref = None ->
  cleanup_video name delete_file video_ref self = (true, self).
Proof. intros H. unfold cleanup_video. by rewrite H. Qed.

(** A tracked handle: the call reports what the remote deletion did. *)
Lemma cleanup_tracked video_ref (self : Analyzer) uploaded_file :
  uploaded_files self !! video_ref = Some uploaded_file ->
  (cleanup_video name delete_file video_ref self).1
  = (delete_file (name uploaded_file) (service self)).1.
Proof.
  intros H. unfold cleanup_video. rewrite H.
  by destruct (delete_file _ _) as [[] ?].
Qed.

(** After a success the handle is not tracked. *)
Lemma cleanup_success_untracks video_ref (self self' : Analyzer) :
  cleanup_video name delete_file video_ref self = (true, self') ->
  uploaded_files self' !! video_ref = None.
Proof.
  unfold cleanup_video.
  destruct (uploaded_files self !! video_ref) eqn:H.
  - destruct (delete_file _ _) as [[] ?]; intros [= <-]; simpl.
    apply lookup_delete_eq.
  - by intros [= <-].
Qed.

(** A failure leaves the bookkeeping as it was. *)
Lemma cleanup_failure_keeps video_ref (self self' : Analyzer) :
  cleanup_video name delete_file video_ref self = (false, self') ->
  is_Some (uploaded_files self !! video_ref)
  /\ uploaded_files self' = uploaded_files self.
Proof.
  unfold cleanup_video.
  destruct (uploaded_files self !! video_ref) eqn:H; [|done].
  destruct (delete_file _ _) as [[] ?]; intros [= <-]; simpl.
  by split; [eexists|].
Qed.

End facts.

(** C8 as stated fails when the remote deletion fails: the handle is
    tracked, the service refuses, and both of two successive calls
    return [False]. *)
Lemma cleanup_twice_fails_when_service_refuses :
  cleanup_video id Samples.refuses "files/a" (Samples.tracking "files/a")
  = (false, Samples.tracking "files/a")
  /\ (cleanup_video id Samples.refuses "files/a"
        (cleanup_video id Samples.refuses "files/a"
           (Samples.tracking "files/a")).2).1
     = false.
Proof. split; reflexivity. Qed.

(** C8, amended: [cleanup_video] always returns (the remote exception is
    caught).  On a handle that is not tracked it returns [True] and
    changes nothing; once a call has returned [True], the handle is not
    tracked and the next call on it returns [True] again; on a tracked
    handle it returns [True] exactly when the remote deletion goes
    through, and a failed call leaves the handle tracked. *)
Theorem cleanup_video_is_idempotent {File Remote : Type}
    (name : File -> string)
    (delete_file : string -> Remote -> bool * Remote)
    (video_ref : string) (self : Analyzer) :
  (uploaded_files self !! video_ref = None ->
   cleanup_video name delete_file video_ref self = (true, self))
  /\ (forall self',
        cleanup_video name delete_file video_ref self = (true, self') ->
        uploaded_files self' !! video_ref = None
        /\ cleanup_video name delete_file video_ref self' = (true, self'))
  /\ (forall uploaded_file,
        uploaded_files self !! video_ref = Some uploaded_file ->
        (cleanup_video name delete_file video_ref self).1
        = (delete_file (name uploaded_file) (service self)).1)
  /\ (forall self',
        cleanup_video name delete_file video_ref self = (false, self') ->
        is_Some (uploaded_files self !! video_ref)
        /\ uploaded_files self' = uploaded_files self).
Proof.
  split; [apply cleanup_untracked|]. split; [|split].
  - intros self' H. apply cleanup_success_untracks in H.
    split; [done | by apply cleanup_untracked].
  - apply cleanup_tracked.
  - apply cleanup_failure_keeps.
Qed.

(** A tracked file and a service that accepts: the first call succeeds
    and so does the second. *)
Lemma cleanup_video_is_idempotent_witness :
  exists self',
    cleanup_video id Samples.accepts "files/a" (Samples.tracking "files/a")
    = (true, self')
    /\ uploaded_files self' !! "files/a" = None
    /\ cleanup_video id Samples.accepts "files/a" self' = (true, self').
Proof.
  eexists. split; [reflexivity|].
  apply (cleanup_video_is_idempotent id Samples.accepts "files/a"
           (Samples.tracking "files/a")).
  reflexivity.
Defined.

End GeminiFacts.

(* ===================================================================== *)
(** * The orchestration pipeline *)
(* ===================================================================== *)

Module PipelineFacts.

Import VideoAnalysisPipeline Eff VideoAnalyzerBase PyFacts.


Section facts.

Context {A : Type} `{!VideoAnalyzer A}.

Variable path_exists : string -> bool.

Variable writable : string -> bool.



End facts.




(** ** Batch mode *)



Section batch.

Context {A : Type} `{!VideoAnalyzer A}.

Variable path_exists : string -> bool.

Variable writable : string -> bool.

Variable cleanup_after_each : bool.

(** One iteration stores the result of the item, or the text of its
    exception; it never raises. *)
Lemma item_entry_spec config (self : Pipeline) :
  item_entry path_exists writable config cleanup_after_each self
  = match VideoAnalysisPipeline.analyze_video path_exists writable
            (config_video_path config) (config_prompt config)
            cleanup_after_each self with
    | (inr result, self') => (inr (Analysed result), self')
    | (inl e, self') => (inr (Error (str e)), self')
    end.
Proof.
  unfold item_entry, try_except, bind, ret.
  by destruct (VideoAnalysisPipeline.analyze_video _ _ _ _ _ self)
    as [[e|result] self'].
Qed.

Lemma item_entry_returns config (self : Pipeline) :
  exists entry self',
    item_entry path_exists writable config cleanup_after_each self
    = (inr entry, self').
Proof.
  rewrite item_entry_spec.
  destruct (VideoAnalysisPipeline.analyze_video _ _ _ _ _ self)
    as [[e|result] self']; by do 2 eexists.
Qed.

(** An upload that fails is reported under that text. *)
Lemma item_entry_upload_fails config (self : Pipeline) a1 a2 :
  path_exists (config_video_path config) = true ->
  initialize (analyzer self) = (true, a1) ->
  upload_video (config_video_path config) a1 = (None, a2) ->
  (item_entry path_exists writable config cleanup_after_each self).1
  = inr (Error "Failed to upload video").
Proof.
  intros Hexists Hinit Hupload. rewrite item_entry_spec.
  unfold VideoAnalysisPipeline.analyze_video, bind, call, log, modify, raise.
  rewrite Hexists. simpl. rewrite Hinit. simpl. rewrite Hupload. done.
Qed.

(** The loop goes through every item; the keys it adds are the stems,
    and the other keys keep their entries. *)
Lemma batch_loop_returns configs results (self : Pipeline) :
  exists results' self',
    batch_loop path_exists writable configs cleanup_after_each results self
    = (inr results', self')
    /\ dom results' = dom results ∪ list_to_set (config_stem <$> configs)
    /\ (forall k, k ∉ config_stem <$> configs ->
          results' !! k = results !! k).
Proof.
  revert results self.
  induction configs as [|config rest IH]; intros results self; simpl.
  - exists results, self. split; [done|]. split; [set_solver|done].
  - unfold bind.
    destruct (item_entry_returns config self) as (entry & self1 & ->).
    destruct (IH (<[config_stem config := entry]> results) self1)
      as (results' & self' & -> & Hdom & Hkeep).
    exists results', self'. split; [done|]. split.
    + rewrite Hdom, dom_insert_L. set_solver.
    + intros k Hk. apply not_elem_of_cons in Hk as [Hne Hk].
      rewrite (Hkeep k Hk). by rewrite lookup_insert_ne.
Qed.

(** The loop over a list split at an item: the items before it run
    first, then the item, in the state they leave; if no later item
    has its stem, its entry is the one found at the end. *)
Lemma batch_loop_item pre config post results (self : Pipeline)
    results' self' :
  batch_loop path_exists writable (pre ++ config :: post)
    cleanup_after_each results self = (inr results', self') ->
  exists r_pre s_pre entry s_next,
    batch_loop path_exists writable pre cleanup_after_each results self
    = (inr r_pre, s_pre)
    /\ item_entry path_exists writable config cleanup_after_each s_pre
       = (inr entry, s_next)
    /\ (config_stem config ∉ config_stem <$> post ->
        results' !! config_stem config = Some entry).
Proof.
  revert results self.
  induction pre as [|c pre IH]; intros results self; simpl.
  - unfold bind.
    destruct (item_entry_returns config self) as (entry & s_next & Hitem).
    rewrite Hitem.
    intros Hrun. exists results, self, entry, s_next.
    split; [done|]. split; [done|]. intros Hlast.
    destruct (batch_loop_returns post
                (<[config_stem config := entry]> results) s_next)
      as (r & s & Hr & _ & Hkeep).
    rewrite Hr in Hrun. injection Hrun as <- <-.
    rewrite (Hkeep _ Hlast). apply lookup_insert_eq.
  - unfold bind.
    destruct (item_entry_returns c self) as (entry & self1 & ->).
    apply IH.
Qed.

(** [batch_analyze] is the loop from the empty dictionary; saving the
    batch file cannot make it fail. *)
Lemma batch_analyze_spec configs (self : Pipeline) :
  exists results s_loop self',
    batch_loop path_exists writable configs cleanup_after_each ∅ self
    = (inr results, s_loop)
    /\ batch_analyze path_exists writable configs cleanup_after_each self
       = (inr results, self')
    /\ dom results = list_to_set (config_stem <$> configs).
Proof.
  destruct (batch_loop_returns configs ∅ self)
    as (results & s_loop & Hloop & Hdom & _).
  unfold batch_analyze, bind, write_file, log, modify, ret.
  rewrite Hloop.
  destruct (writable "batch_analysis_results.json"); simpl;
    do 3 eexists; (split; [done|]); (split; [done|]);
    rewrite Hdom, dom_empty_L; set_solver.
Qed.

End batch.

(** C9 as stated fails when two items share a stem: of three items
    whose 2nd upload fails, the 3rd, stored under the same key, replaces
    the error of the 2nd; the batch result has two entries and no error
    entry. *)
Lemma batch_error_entry_overwritten :
  exists results self' result,
    batch_analyze (VideoAnalyzer0 := Samples.flaky)
      Samples.everywhere Samples.everywhere
      [Samples.config "x/a.mp4"; Samples.config "clips/b.mp4";
       Samples.config "y/b.mp4"] true Samples.fresh_pipeline
    = (inr results, self')
    /\ journal self' !! 6%nat = Some (Uploaded "clips/b.mp4" None)
    /\ size results = 2%nat
    /\ results !! "b" = Some (Analysed result)
    /\ video_path result = "y/b.mp4".
Proof.
  do 3 eexists. split; [vm_compute; reflexivity|]. by vm_compute.
Qed.

(** C9, amended.  The batch never raises and goes through every item.
    When the stems of the video paths are pairwise distinct, the batch
    result has one entry per item, stored under the item's stem: the
    result of [analyze_video] on that item, run in the state the
    earlier items left, or, if that run raised, the text of its
    exception; an upload that fails raises "Failed to upload video". *)
Theorem batch_items_are_independent {A : Type} `{!VideoAnalyzer A}
    (path_exists writable : string -> bool) (cleanup_after_each : bool)
    (configs : list Config) (self : Pipeline) :
  exists results self',
    batch_analyze path_exists writable configs cleanup_after_each self
    = (inr results, self')
    /\ (NoDup (config_stem <$> configs) ->
        size results = length configs
        /\ forall pre config post,
             configs = pre ++ config :: post ->
             exists r_pre s_pre outcome s_next,
               batch_loop path_exists writable pre cleanup_after_each ∅ self
               = (inr r_pre, s_pre)
               /\ VideoAnalysisPipeline.analyze_video path_exists writable
                    (config_video_path config) (config_prompt config)
                    cleanup_after_each s_pre
                  = (outcome, s_next)
               /\ results !! config_stem config
                  = Some match outcome with
                         | inr result => Analysed result
                         | inl e => Error (str e)
                         end)
    /\ (forall config (s : Pipeline) a1 a2,
          path_exists (config_video_path config) = true ->
          initialize (analyzer s) = (true, a1) ->
          upload_video (config_video_path config) a1 = (None, a2) ->
          (VideoAnalysisPipeline.analyze_video path_exists writable
             (config_video_path config) (config_prompt config)
             cleanup_after_each s).1
          = inl (RuntimeError "Failed to upload video")).
Proof.
  destruct (batch_analyze_spec path_exists writable cleanup_after_each
              configs self) as (results & s_loop & self' & Hloop & Hrun & Hdom).
  exists results, self'. split; [done|]. split.
  - intros Hnodup. split.
    + rewrite <- size_dom, Hdom, size_list_to_set by done.
      by rewrite length_fmap.
    + intros pre config post ->.
      destruct (batch_loop_item _ _ _ _ _ _ _ _ _ _ Hloop)
        as (r_pre & s_pre & entry & s_next & Hpre & Hitem & Hlast).
      rewrite fmap_app, fmap_cons in Hnodup.
      apply NoDup_app in Hnodup as (_ & _ & Hnodup).
      apply NoDup_cons in Hnodup as [Hfresh _].
      specialize (Hlast Hfresh).
      rewrite item_entry_spec in Hitem.
      destruct (VideoAnalysisPipeline.analyze_video _ _ _ _ _ s_pre)
        as [outcome s] eqn:Hout.
      exists r_pre, s_pre, outcome, s. split; [done|]. split; [done|].
      by destruct outcome; simplify_eq.
  - intros config s a1 a2 Hexists Hinit Hupload.
    unfold VideoAnalysisPipeline.analyze_video, bind, call, log, modify,
      raise.
    rewrite Hexists. simpl. rewrite Hinit. simpl. by rewrite Hupload.
Qed.

(** Three items with distinct stems, the upload of the 2nd failing:
    results for the 1st and the 3rd, an error entry for the 2nd. *)
Lemma batch_items_are_independent_witness :
  exists results self' result1 result3,
    batch_analyze (VideoAnalyzer0 := Samples.flaky)
      Samples.everywhere Samples.everywhere
      [Samples.config "clips/a.mp4"; Samples.config "clips/b.mp4";
       Samples.config "clips/c.mp4"] true Samples.fresh_pipeline
    = (inr results, self')
    /\ size results = 3%nat
    /\ results !! "a" = Some (Analysed result1)
    /\ results !! "b" = Some (Error "Failed to upload video")
    /\ results !! "c" = Some (Analysed result3).
Proof.
  destruct (batch_items_are_independent (VideoAnalyzer0 := Samples.flaky)
              Samples.everywhere Samples.everywhere true
              [Samples.config "clips/a.mp4"; Samples.config "clips/b.mp4";
               Samples.config "clips/c.mp4"] Samples.fresh_pipeline)
    as (results & self' & Hrun & Hitems & _).
  destruct Hitems as [Hsize Hitems].
  { apply (bool_decide_unpack _). by vm_compute. }
  exists results, self'.
  destruct (Hitems [] (Samples.config "clips/a.mp4")
              [Samples.config "clips/b.mp4"; Samples.config "clips/c.mp4"]
              eq_refl) as (r0 & s0 & oa & sa & H0 & Ea & Ha).
  destruct (Hitems [Samples.config "clips/a.mp4"]
              (Samples.config "clips/b.mp4")
              [Samples.config "clips/c.mp4"] eq_refl)
    as (r1 & s1 & ob & sb & H1 & Eb & Hb).
  destruct (Hitems [Samples.config "clips/a.mp4";
                    Samples.config "clips/b.mp4"]
              (Samples.config "clips/c.mp4") [] eq_refl)
    as (r2 & s2 & oc & sc & H2 & Ec & Hc).
  vm_compute in H0. injection H0 as <- <-.
  vm_compute in Ea. injection Ea as <- <-.
  vm_compute in H1. injection H1 as <- <-.
  vm_compute in Eb. injection Eb as <- <-.
  vm_compute in H2. injection H2 as <- <-.
  vm_compute in Ec. injection Ec as <- <-.
  do 2 eexists. split; [exact Hrun|]. split; [exact Hsize|].
  split; [exact Ha|]. split; [exact Hb | exact Hc].
Defined.



End PipelineFacts.

(* ===================================================================== *)
(** * More on main.py: parsing, extraction, rotation *)
(* ===================================================================== *)

Module MainProps.

Import Main PyFacts.

Lemma split_without_separator c s :
  Py.contains c s = false -> Py.split c s = [s].
Proof.
  induction s as [|d s IH]; simpl; [done|].
  destruct (Ascii.eqb d c); [done|]. intros H. by rewrite IH.
Qed.

(** With at most two colons the result is always a float: the value of
    the formula when [float] accepts every part, and the fallback 0.0
    as soon as it rejects one. *)
Theorem timestamp_is_float_up_to_three_parts
    (float_of_str : string -> option float) (ts : string) :
  (length (Py.split ":" ts) <= 3)%nat ->
  timestamp_to_seconds float_of_str ts
  = PyFloat match mapM float_of_str (Py.split ":" ts) with
            | Some [x] => x
            | Some [m; s] => (m * 60 + s)%float
            | Some [h; m; s] => (h * 3600 + m * 60 + s)%float
            | _ => 0%float
            end.
Proof.
  intros Hlen. unfold timestamp_to_seconds, timestamp_body.
  destruct (Py.contains ":" ts) eqn:Hc.
  - apply contains_split_length in Hc.
    destruct (Py.split ":" ts) as [|a [|b [|c [|d l]]]];
      simpl in *; try lia.
    + by destruct (float_of_str a), (float_of_str b).
    + by destruct (float_of_str a), (float_of_str b), (float_of_str c).
  - rewrite (split_without_separator _ _ Hc). simpl.
    by destruct (float_of_str ts).
Qed.

Lemma timestamp_is_float_up_to_three_parts_witness :
  timestamp_to_seconds short_decimal "1:02:03" = PyFloat 3723%float
  /\ timestamp_to_seconds short_decimal "1:xx:03" = PyFloat 0%float.
Proof.
  split.
  - rewrite (timestamp_is_float_up_to_three_parts short_decimal "1:02:03");
      [reflexivity | vm_compute; lia].
  - rewrite (timestamp_is_float_up_to_three_parts short_decimal "1:xx:03");
      [reflexivity | vm_compute; lia].
Defined.





End MainProps.

(* ===================================================================== *)
(** * More on rotation and slow motion *)
(* ===================================================================== *)

Module NormalizerProps.

Import Main PyFacts.

Section facts.

Variable int_of_str : string -> option Z.

(** The scan passes over a stream that is not a video stream, and over
    a video stream with neither a display matrix nor a rotate tag. *)
Lemma scan_streams_first_video pre stream post :
  Forall (fun s => codec_type s <> Some "video"
                   \/ (display_matrix (side_data_list s) = None
                       /\ tags_rotate s = None)) pre ->
  codec_type stream = Some "video" ->
  scan_streams int_of_str (pre ++ stream :: post)
  = match display_matrix (side_data_list stream) with
    | Some angle => Return angle
    | None =>
        match tags_rotate stream with
        | Some t =>
            match int_of_str t with
            | Some angle => Return angle
            | None => Raise
            end
        | None => scan_streams int_of_str post
        end
    end.
Proof.
  intros Hpre Hvideo. induction Hpre as [|s pre Hs _ IH]; simpl.
  - by rewrite decide_True.
  - destruct Hs as [Hs|[Hm Ht]].
    + by rewrite decide_False.
    + destruct (decide (codec_type s = Some "video")); [|done].
      by rewrite Hm, Ht.
Qed.

Lemma corrected_upright {Frame : Type}
    (cv2_rotate : Cv2.RotateCode -> Frame -> Frame) (frames : list Frame) :
  corrected cv2_rotate 0 <$> frames = frames.
Proof. induction frames as [|f l IH]; [done|]. by rewrite fmap_cons, IH. Qed.

End facts.

(** The rotation is decided by the first video stream that carries a
    display matrix or a rotate tag; streams of other kinds and video
    streams with neither are passed over.  In the deciding stream the
    display matrix wins over the tag, and a tag that [int] rejects
    gives 0 even if a later stream carries a rotation. *)
Theorem first_video_stream_decides (int_of_str : string -> option Z)
    (pre : list Stream) (stream : Stream) (post : list Stream) :
  Forall (fun s => codec_type s <> Some "video"
                   \/ (display_matrix (side_data_list s) = None
                       /\ tags_rotate s = None)) pre ->
  codec_type stream = Some "video" ->
  get_video_rotation int_of_str (ProbeExit 0 (Some (pre ++ stream :: post)))
  = match display_matrix (side_data_list stream) with
    | Some angle => angle
    | None =>
        match tags_rotate stream with
        | Some t => default 0%Z (int_of_str t)
        | None => get_video_rotation int_of_str (ProbeExit 0 (Some post))
        end
    end.
Proof.
  intros Hpre Hvideo. simpl.
  rewrite (scan_streams_first_video _ _ _ _ Hpre Hvideo).
  destruct (display_matrix (side_data_list stream)); [done|].
  destruct (tags_rotate stream) as [t|]; [|done].
  by destruct (int_of_str t).
Qed.

(** An audio stream with a display matrix and a tag is passed over;
    the video stream after it decides, by its display matrix. *)
Lemma first_video_stream_decides_witness :
  get_video_rotation (fun _ => Some 180%Z) MoreSamples.mixed_probe = 90%Z.
Proof.
  apply (first_video_stream_decides (fun _ => Some 180%Z)
             [ {| codec_type := Some "audio";
                  side_data_list :=
                    [ {| side_data_type := Some "Display Matrix";
                         rotation := Some 180%Z |} ];
                  tags_rotate := Some "270" |} ]
             {| codec_type := Some "video";
                side_data_list :=
                  [ {| side_data_type := Some "Display Matrix";
                       rotation := Some (-90)%Z |} ];
                tags_rotate := Some "180" |} []).
  - constructor; [left; discriminate | constructor].
  - reflexivity.
Defined.

(** A video that needs no rotation, in particular every video whose
    probe fails, is re-timed only: the writer has the size of the
    source and receives the decoded frames themselves, in order. *)
Theorem upright_video_is_only_retimed {Frame : Type}
    (int_of_str : string -> option Z)
    (cv2_rotate : Cv2.RotateCode -> Frame -> Frame)
    (probe : Ffprobe) (cap : Cv2.VideoCapture Frame) (slow_factor : Q) :
  get_video_rotation int_of_str probe = 0%Z ->
  ~ (slow_factor == 0)%Q ->
  slow_down_video int_of_str cv2_rotate probe (Some cap) slow_factor
  = (true,
     Some {| Cv2.vw_fps := (Cv2.CAP_PROP_FPS cap / slow_factor)%Q;
             Cv2.vw_size :=
               (Py.int_of_number (Cv2.CAP_PROP_FRAME_WIDTH cap),
                Py.int_of_number (Cv2.CAP_PROP_FRAME_HEIGHT cap));
             Cv2.vw_frames := Cv2.decoded cap |}).
Proof.
  intros Hrot Hfactor. unfold slow_down_video.
  rewrite Hrot, (truediv_Some _ _ Hfactor). do 2 f_equal.
  match goal with
  | |- write_frames _ ?a ?fs ?o = _ =>
      destruct (NormalizerFacts.write_frames_appends cv2_rotate a fs o)
        as (Hf & Hfps & Hsize);
      destruct (write_frames cv2_rotate a fs o) as [fps size frames]
  end.
  simpl in *. subst. by rewrite corrected_upright.
Qed.

Lemma upright_video_is_only_retimed_witness :
  slow_down_video (fun _ => None) Samples.rotate ProbeRaised
    (Some (Samples.clip 30 2 2)) 2
  = (true,
     Some {| Cv2.vw_fps := (30 / 2)%Q;
             Cv2.vw_size := (1920, 1080)%Z;
             Cv2.vw_frames := [(0%nat, []); (1%nat, [])] |}).
Proof.
  apply (upright_video_is_only_retimed (fun _ => None) Samples.rotate
           ProbeRaised (Samples.clip 30 2 2) 2).
  - reflexivity.
  - vm_compute. discriminate.
Defined.

(** Whatever angle the metadata gives, the frames handed to the writer
    have the size the writer was opened with: the sides are swapped
    exactly when the frames are turned by a quarter.  ([dims] is the
    size of a frame, width first.) *)
Theorem written_frames_fit_the_writer {Frame : Type}
    (int_of_str : string -> option Z)
    (cv2_rotate : Cv2.RotateCode -> Frame -> Frame)
    (dims : Frame -> Z * Z)
    (probe : Ffprobe) (cap : Cv2.VideoCapture Frame) (slow_factor : Q)
    (out : Cv2.VideoWriter Frame) :
  (forall f, dims (cv2_rotate Cv2.ROTATE_90_CLOCKWISE f)
             = ((dims f).2, (dims f).1)) ->
  (forall f, dims (cv2_rotate Cv2.ROTATE_90_COUNTERCLOCKWISE f)
             = ((dims f).2, (dims f).1)) ->
  (forall f, dims (cv2_rotate Cv2.ROTATE_180 f) = dims f) ->
  (forall f, f ∈ Cv2.decoded cap ->
             dims f = (Py.int_of_number (Cv2.CAP_PROP_FRAME_WIDTH cap),
                       Py.int_of_number (Cv2.CAP_PROP_FRAME_HEIGHT cap))) ->
  slow_down_video int_of_str cv2_rotate probe (Some cap) slow_factor
  = (true, Some out) ->
  forall f, f ∈ Cv2.vw_frames out -> dims f = Cv2.vw_size out.
Proof.
  intros Hcw Hccw Hhalf Hsource. unfold slow_down_video.
  destruct (Py.truediv _ _) as [new_fps|]; [|done].
  intros [= <-] f.
  match goal with
  | |- context [write_frames _ ?a ?fs ?o] =>
      destruct (NormalizerFacts.write_frames_appends cv2_rotate a fs o)
        as (-> & _ & ->)
  end.
  simpl. intros (g & -> & Hg)%list_elem_of_fmap.
  specialize (Hsource g Hg).
  unfold corrected, rotate_frame, output_size.
  set (angle := get_video_rotation int_of_str probe).
  destruct (Z.eqb_spec angle 0) as [->|?]; [done|].
  destruct (Z.eqb_spec angle 90) as [->|?]; simpl.
  { by rewrite Hcw, Hsource. }
  destruct (Z.eqb_spec angle 180) as [->|?]; simpl.
  { by rewrite Hhalf. }
  destruct (Z.eqb_spec angle 270) as [->|?]; simpl; [|done].
  by rewrite Hccw, Hsource.
Qed.

Lemma written_frames_fit_the_writer_witness :
  Forall (fun f => MoreSamples.dims f = (1080, 1920)%Z)
         [(0%nat, [Cv2.ROTATE_90_CLOCKWISE]);
          (1%nat, [Cv2.ROTATE_90_CLOCKWISE])].
Proof.
  apply Forall_forall.
  apply (written_frames_fit_the_writer (fun _ => None) Samples.rotate
           MoreSamples.dims (Samples.display_matrix_probe (-90))
           (Samples.clip 30 2 2) 2
           {| Cv2.vw_fps := (30 / 2)%Q;
              Cv2.vw_size := (1080, 1920)%Z;
              Cv2.vw_frames := [(0%nat, [Cv2.ROTATE_90_CLOCKWISE]);
                                (1%nat, [Cv2.ROTATE_90_CLOCKWISE])] |}).
  - intros [n l]. unfold MoreSamples.dims, Samples.rotate. simpl.
    rewrite List.filter_app, length_app. simpl.
    rewrite Nat.add_1_r, Nat.even_succ, <- Nat.negb_even.
    by destruct (Nat.even _).
  - intros [n l]. unfold MoreSamples.dims, Samples.rotate. simpl.
    rewrite List.filter_app, length_app. simpl.
    rewrite Nat.add_1_r, Nat.even_succ, <- Nat.negb_even.
    by destruct (Nat.even _).
  - intros [n l]. unfold MoreSamples.dims, Samples.rotate. simpl.
    rewrite List.filter_app, length_app. simpl.
    by rewrite Nat.add_0_r.
  - intros f Hf. vm_compute in Hf.
    apply list_elem_of_In in Hf. simpl in Hf.
    by destruct Hf as [<-|[<-|[]]].
  - reflexivity.
Defined.

End NormalizerProps.
